(** * ssmenv: exporting an SSM parameter to a [.env] file

    A shallow embedding of [ssmenv/env.py]:

    <<
    def savessm(param_name: str):
        session = boto3.Session()
        client = session.client('ssm')
        parameter_value = client.get_parameter(Name=param_name)['ParameterValue']
        vars = json.loads(parameter_value)
        with open(".env", "w") as f:
            for key, value in vars.items():
                f.write(f"{key}={value}\n")

    if __name__ == "__main__":
        typer.run(savessm)
    >>

    The function is eight lines of glue between four libraries, so the
    development has four layers:
    - [Py]: Python strings (sequences of code points), the values that
      [json.loads] can build, dictionaries in insertion order, and
      [str()]/[repr()] on those values, which is what an f-string applies;
    - [Json]: [json.loads] on a [str], as the decoder of CPython accepts it;
    - [Ssmenv]: the world (the files and the trace of calls that left the
      process), the outcomes of the calls the function makes to boto3 and
      to the file system, the function itself, and [typer.run];
    - the properties of the exporter.

    What the interpreter bounds (recursion depth, the digit limit of [int])
    is not modelled: integers are [Z] and nesting is unbounded. *)

From Stdlib Require Import List ZArith NArith Bool Ascii String.
From Stdlib Require Import DecimalString.
Import ListNotations.

Set Implicit Arguments.
Set Warnings "-register-all".
Local Open Scope list_scope.

(* ================================================================= *)
(** ** Python values *)

Module Py.

(** A Python [str] is a sequence of Unicode code points. *)
Definition char := N.
Definition pystr := list char.

(** Literals are written as Rocq strings; every character of a literal is
    its own code point. *)
Definition str (s : string) : pystr :=
  List.map N_of_ascii (list_ascii_of_string s).

(** JSON texts are full of double quotes: [dq] writes them with
    apostrophes, [dq "{'A':'1'}"] being the text [{"A":"1"}]. *)
Definition quote_char : char := 34%N.
Definition apostrophe : char := 39%N.
Definition dq (s : string) : pystr :=
  List.map (fun c => if N.eqb c apostrophe then quote_char else c) (str s).

Definition str_eqb (a b : pystr) : bool :=
  if list_eq_dec N.eq_dec a b then true else false.

(** [sep.join(parts)] *)
Fixpoint join (sep : pystr) (parts : list pystr) : pystr :=
  match parts with
  | [] => []
  | [p] => p
  | p :: ps => p ++ sep ++ join sep ps
  end.

(** A [float] is kept as the text it was read from: its value is whatever
    [float(text)] is on the running interpreter. *)
Inductive pyfloat :=
| FloatOf (text : pystr)
| FloatNaN
| FloatInf
| FloatNegInf.

(** The objects [json.loads] builds. A [dict] is its list of items in
    insertion order; its keys are [str] here, and pairwise different. *)
Inductive value :=
| PyNone
| PyBool (b : bool)
| PyInt (z : Z)
| PyFloat (f : pyfloat)
| PyStr (s : pystr)
| PyList (l : list value)
| PyDict (d : list (pystr * value)).

Definition pydict := list (pystr * value).

(** The exceptions that can reach [savessm]. boto3 reports what the store
    answers as a [ClientError] with the error code of the response
    ([ParameterNotFound], [AccessDeniedException], ...), and what goes
    wrong on its own side (no credentials, no region, no connection) as a
    [BotoCoreError]. *)
Inductive exception :=
| KeyError (key : pystr)
| TypeError
| AttributeError (name : pystr)
| JSONDecodeError
| UnicodeEncodeError
| OSError (errno : Z)
| ClientError (code : pystr)
| BotoCoreError (name : pystr).

(** *** Dictionaries *)

Section Dict.
Variable V : Type.

(** [d[k]], when [k] is a key *)
Fixpoint dict_get (d : list (pystr * V)) (k : pystr) : option V :=
  match d with
  | [] => None
  | (k', v) :: d' => if str_eqb k' k then Some v else dict_get d' k
  end.

(** [d[k] = v]: an existing key keeps its place and takes the new value,
    a new key goes to the end. *)
Fixpoint dict_setitem (d : list (pystr * V)) (k : pystr) (v : V)
  : list (pystr * V) :=
  match d with
  | [] => [(k, v)]
  | (k', v') :: d' =>
      if str_eqb k' k then (k', v) :: d'
      else (k', v') :: dict_setitem d' k v
  end.

(** [dict(pairs)] *)
Definition dict_of_pairs (pairs : list (pystr * V)) : list (pystr * V) :=
  fold_left (fun d kv => dict_setitem d (fst kv) (snd kv)) pairs [].

End Dict.

(** *** [str()] and [repr()] *)

Definition hexdigit (n : N) : char :=
  (if n <? 10 then 48 + n else 87 + n)%N.

(** [n] as [digits] lowercase hexadecimal digits *)
Fixpoint hex (digits : nat) (n : N) : pystr :=
  match digits with
  | O => []
  | S k => hex k (n / 16) ++ [hexdigit (n mod 16)]
  end.

Definition decimal (z : Z) : pystr :=
  str (NilZero.string_of_int (Z.to_int z)).

Section Repr.
(** Two things are the interpreter's: which code points above ASCII are
    printable (the Unicode database), and the shortest decimal text of
    a float. *)
Variable isprintable : char -> bool.
Variable float_repr : pystr -> pystr.

Definition backslash : char := 92%N.

(** One character of [repr(s)], inside the quotes [q]. *)
Definition repr_char (q c : char) : pystr :=
  (if (c =? q) || (c =? backslash) then [backslash; c]
   else if c =? 9 then str "\t"
   else if c =? 10 then str "\n"
   else if c =? 13 then str "\r"
   else if (c <? 32) || (c =? 127) then str "\x" ++ hex 2 c
   else if c <? 127 then [c]
   else if isprintable c then [c]
   else if c <=? 255 then str "\x" ++ hex 2 c
   else if c <=? 65535 then str "\u" ++ hex 4 c
   else str "\U" ++ hex 8 c)%N.

Definition has_char (c : char) (s : pystr) : bool :=
  existsb (N.eqb c) s.

(** [repr(s)]: apostrophes around the text, unless it holds an
    apostrophe and no double quote. *)
Definition repr_str (s : pystr) : pystr :=
  let q := if has_char apostrophe s && negb (has_char quote_char s)
           then quote_char else apostrophe in
  [q] ++ flat_map (repr_char q) s ++ [q].

Definition str_float (f : pyfloat) : pystr :=
  match f with
  | FloatOf text => float_repr text
  | FloatNaN => str "nan"
  | FloatInf => str "inf"
  | FloatNegInf => str "-inf"
  end.

Fixpoint repr (v : value) : pystr :=
  match v with
  | PyNone => str "None"
  | PyBool true => str "True"
  | PyBool false => str "False"
  | PyInt z => decimal z
  | PyFloat f => str_float f
  | PyStr s => repr_str s
  | PyList l => str "[" ++ join (str ", ") (List.map repr l) ++ str "]"
  | PyDict d =>
      str "{"
      ++ join (str ", ")
           (List.map (fun kv => match kv with
                                | (k, x) => repr_str k ++ str ": " ++ repr x
                                end) d)
      ++ str "}"
  end.

(** [str(v)], which is also [format(v, '')], what [f"{v}"] evaluates:
    a [str] is itself, everything else is its [repr]. *)
Definition to_str (v : value) : pystr :=
  match v with
  | PyStr s => s
  | _ => repr v
  end.
End Repr.

End Py.

(* ================================================================= *)
(** ** [json.loads] *)

Module Json.
Import Py.

(** The syntax tree of a JSON text. An object keeps all its members, in
    the order of the text, duplicates included (what [object_pairs_hook]
    would receive). *)
Inductive json :=
| JNull
| JBool (b : bool)
| JInt (z : Z)
| JFloat (f : pyfloat)
| JString (s : pystr)
| JArray (items : list json)
| JObject (members : list (pystr * json)).

(** *** Scanning *)

Inductive token :=
| TLBrace | TRBrace | TLBracket | TRBracket | TColon | TComma
| TValue (v : json).

Definition is_ws (c : char) : bool :=
  ((c =? 32) || (c =? 9) || (c =? 10) || (c =? 13))%N.

Definition is_digit (c : char) : bool := ((48 <=? c) && (c <=? 57))%N.

Definition hexval (c : char) : option N :=
  (if is_digit c then Some (c - 48)
   else if (97 <=? c) && (c <=? 102) then Some (c - 87)
   else if (65 <=? c) && (c <=? 70) then Some (c - 55)
   else None)%N.

(** The four hexadecimal digits of a [\uXXXX] escape. *)
Definition hex4 (s : pystr) : option N :=
  match s with
  | a :: b :: c :: d :: _ =>
      match hexval a, hexval b, hexval c, hexval d with
      | Some a, Some b, Some c, Some d =>
          Some (((a * 16 + b) * 16 + c) * 16 + d)%N
      | _, _, _, _ => None
      end
  | _ => None
  end.

(** The escape that starts after a backslash: the code point it stands
    for and the number of characters it takes. A high surrogate followed
    by an escaped low surrogate is one code point; a surrogate alone is
    kept as it is. *)
Definition escape (s : pystr) : option (char * nat) :=
  match s with
  | [] => None
  | c :: r =>
      (if c =? 117 then
         match hex4 r with
         | None => None
         | Some hi =>
             let lone := Some (hi, 5%nat) in
             if (55296 <=? hi) && (hi <=? 56319) then
               match skipn 4 r with
               | b :: u :: r' =>
                   if (b =? 92) && (u =? 117) then
                     match hex4 r' with
                     | Some lo =>
                         if (56320 <=? lo) && (lo <=? 57343)
                         then Some (65536 + (hi - 55296) * 1024 + (lo - 56320),
                                    11%nat)
                         else lone
                     | None => lone
                     end
                   else lone
               | _ => lone
               end
             else lone
         end
       else if c =? 34 then Some (34, 1%nat)
       else if c =? 92 then Some (92, 1%nat)
       else if c =? 47 then Some (47, 1%nat)
       else if c =? 98 then Some (8, 1%nat)
       else if c =? 102 then Some (12, 1%nat)
       else if c =? 110 then Some (10, 1%nat)
       else if c =? 114 then Some (13, 1%nat)
       else if c =? 116 then Some (9, 1%nat)
       else None)%N
  end.

Definition push (c : char) (r : option (pystr * nat)) : option (pystr * nat) :=
  match r with
  | Some (s, n) => Some (c :: s, S n)
  | None => None
  end.

Definition skipped (r : option (pystr * nat)) : option (pystr * nat) :=
  match r with
  | Some (s, n) => Some (s, S n)
  | None => None
  end.

(** [scanstring] (strict): [s] starts after the opening quote. The result
    is the text of the string and the number of characters up to and with
    the closing quote. [skip] characters are passed over first: they
    belong to an escape that was decoded already. *)
Fixpoint scanstring_from (skip : nat) (s : pystr) : option (pystr * nat) :=
  match s with
  | [] => None
  | c :: r =>
      match skip with
      | S k => skipped (scanstring_from k r)
      | O =>
          (if c =? 34 then Some ([], 1%nat)
           else if c =? 92 then
             match escape r with
             | Some (cp, n) => push cp (scanstring_from n r)
             | None => None
             end
           else if c <? 32 then None
           else push c (scanstring_from 0 r))%N
      end
  end.

Definition scanstring (s : pystr) : option (pystr * nat) :=
  scanstring_from 0 s.

Fixpoint digits (s : pystr) : pystr :=
  match s with
  | c :: r => if is_digit c then c :: digits r else []
  | [] => []
  end.

(** The integer part: an optional minus sign, then [0] alone or a digit
    from 1 to 9 followed by digits. *)
Definition match_integer (s : pystr) : option pystr :=
  let (sign, r) := match s with
                   | c :: r' => if (c =? 45)%N then ([c], r') else ([], s)
                   | [] => ([], s)
                   end in
  match r with
  | c :: _ =>
      if (c =? 48)%N then Some (sign ++ [c])
      else if is_digit c then Some (sign ++ digits r)
      else None
  | [] => None
  end.

(** The fraction, if there is one: a dot and at least one digit. *)
Definition match_frac (s : pystr) : pystr :=
  match s with
  | c :: r =>
      if (c =? 46)%N then
        match digits r with [] => [] | ds => c :: ds end
      else []
  | [] => []
  end.

(** The exponent, if there is one: [e] or [E], an optional sign and at
    least one digit. *)
Definition match_exp (s : pystr) : pystr :=
  match s with
  | e :: r =>
      if ((e =? 101) || (e =? 69))%N then
        let (sign, r') := match r with
                          | c :: r'' =>
                              if ((c =? 45) || (c =? 43))%N
                              then ([c], r'') else ([], r)
                          | [] => ([], r)
                          end in
        match digits r' with [] => [] | ds => e :: sign ++ ds end
      else []
  | [] => []
  end.

(** [int(text)] for the text of a JSON integer *)
Definition int_of (text : pystr) : Z :=
  let value := fun ds =>
    fold_left (fun acc c => (10 * acc + Z.of_N (c - 48))%Z) ds 0%Z in
  match text with
  | c :: r => if (c =? 45)%N then Z.opp (value r) else value text
  | [] => 0%Z
  end.

(** [NUMBER_RE.match]: an integer when there is neither fraction nor
    exponent, a float otherwise. *)
Definition match_number (s : pystr) : option (json * nat) :=
  match match_integer s with
  | None => None
  | Some integer =>
      let frac := match_frac (skipn (List.length integer) s) in
      let exp := match_exp (skipn (List.length integer + List.length frac) s) in
      let n := (List.length integer + List.length frac + List.length exp)%nat in
      match frac, exp with
      | [], [] => Some (JInt (int_of integer), n)
      | _, _ => Some (JFloat (FloatOf (integer ++ frac ++ exp)), n)
      end
  end.

Fixpoint starts_with (prefix s : pystr) : bool :=
  match prefix, s with
  | [], _ => true
  | p :: prefix', c :: s' => (p =? c)%N && starts_with prefix' s'
  | _ :: _, [] => false
  end.

(** What [scan_once] reads at the start of [s], with its length: a
    punctuation mark, a string, a literal or a number. *)
Definition scan_token (s : pystr) : option (token * nat) :=
  let literal (text : pystr) (v : json) :=
    if starts_with text s then Some (TValue v, List.length text) else None in
  match s with
  | [] => None
  | c :: r =>
      (if c =? 34 then
         match scanstring r with
         | Some (text, n) => Some (TValue (JString text), S n)
         | None => None
         end
       else if c =? 123 then Some (TLBrace, 1%nat)
       else if c =? 125 then Some (TRBrace, 1%nat)
       else if c =? 91 then Some (TLBracket, 1%nat)
       else if c =? 93 then Some (TRBracket, 1%nat)
       else if c =? 58 then Some (TColon, 1%nat)
       else if c =? 44 then Some (TComma, 1%nat)
       else if c =? 110 then literal (str "null") JNull
       else if c =? 116 then literal (str "true") (JBool true)
       else if c =? 102 then literal (str "false") (JBool false)
       else
         match match_number s with
         | Some (v, n) => Some (TValue v, n)
         | None =>
             if c =? 78 then literal (str "NaN") (JFloat FloatNaN)
             else if c =? 73 then literal (str "Infinity") (JFloat FloatInf)
             else if c =? 45 then literal (str "-Infinity") (JFloat FloatNegInf)
             else None
         end)%N
  end.

(** The tokens of a text; white space may stand between any two. *)
Fixpoint tokens_from (skip : nat) (s : pystr) : option (list token) :=
  match s with
  | [] => Some []
  | c :: r =>
      match skip with
      | S k => tokens_from k r
      | O =>
          if is_ws c then tokens_from 0 r
          else
            match scan_token s with
            | Some (t, n) =>
                match tokens_from (Nat.pred n) r with
                | Some ts => Some (t :: ts)
                | None => None
                end
            | None => None
            end
      end
  end.

Definition tokens (s : pystr) : option (list token) := tokens_from 0 s.

(** *** Parsing *)

(** The containers that are open around the value being read. *)
Inductive frame :=
| InArray (items : list json)
| InObject (members : list (pystr * json)) (key : pystr).

(** What may come next. *)
Inductive expect :=
| Value
| FirstItem
| NextItem (items : list json)
| FirstKey
| Key (members : list (pystr * json))
| Colon (members : list (pystr * json)) (key : pystr)
| NextMember (members : list (pystr * json))
| End (v : json).

(** A value is complete: it is the whole text, or the next item of the
    array around it, or the value of the pending key of the object around
    it. *)
Definition complete (v : json) (stack : list frame) : expect * list frame :=
  match stack with
  | [] => (End v, [])
  | InArray items :: stack' => (NextItem (items ++ [v]), stack')
  | InObject members key :: stack' =>
      (NextMember (members ++ [(key, v)]), stack')
  end.

Definition start_value (stack : list frame) (t : token)
  : option (expect * list frame) :=
  match t with
  | TValue v => Some (complete v stack)
  | TLBracket => Some (FirstItem, stack)
  | TLBrace => Some (FirstKey, stack)
  | _ => None
  end.

Definition step (e : expect) (stack : list frame) (t : token)
  : option (expect * list frame) :=
  match e, t with
  | Value, _ => start_value stack t
  | FirstItem, TRBracket => Some (complete (JArray []) stack)
  | FirstItem, _ => start_value (InArray [] :: stack) t
  | NextItem items, TComma => Some (Value, InArray items :: stack)
  | NextItem items, TRBracket => Some (complete (JArray items) stack)
  | FirstKey, TRBrace => Some (complete (JObject []) stack)
  | FirstKey, TValue (JString k) => Some (Colon [] k, stack)
  | Key members, TValue (JString k) => Some (Colon members k, stack)
  | Colon members k, TColon => Some (Value, InObject members k :: stack)
  | NextMember members, TComma => Some (Key members, stack)
  | NextMember members, TRBrace => Some (complete (JObject members) stack)
  | _, _ => None
  end.

(** The text is accepted when its last token completes the outermost
    value; a token after that is extra data. *)
Fixpoint parse_from (e : expect) (stack : list frame) (ts : list token)
  : option json :=
  match ts with
  | [] => match e with End v => Some v | _ => None end
  | t :: ts' =>
      match step e stack t with
      | Some (e', stack') => parse_from e' stack' ts'
      | None => None
      end
  end.

(** [JSONDecoder.decode] up to the syntax tree *)
Definition parse (s : pystr) : option json :=
  match tokens s with
  | Some ts => parse_from Value [] ts
  | None => None
  end.

(** *** Building the Python object *)

(** An object becomes [dict(pairs)]: of two members with one key, the
    first gives the place and the last gives the value. *)
Fixpoint to_py (j : json) : value :=
  match j with
  | JNull => PyNone
  | JBool b => PyBool b
  | JInt z => PyInt z
  | JFloat f => PyFloat f
  | JString s => PyStr s
  | JArray items => PyList (List.map to_py items)
  | JObject members =>
      PyDict (dict_of_pairs
                (List.map (fun m => match m with
                                    | (k, v) => (k, to_py v)
                                    end) members))
  end.

Definition byte_order_mark : char := 65279%N.

(** [json.loads(s)]: [s] must be a [str] ([bytes] are not among the values
    here), must not start with a byte order mark, and must be one JSON
    value with nothing but white space around it. *)
Definition loads (s : value) : exception + value :=
  match s with
  | PyStr text =>
      if starts_with [byte_order_mark] text then inl JSONDecodeError
      else
        match parse text with
        | Some j => inr (to_py j)
        | None => inl JSONDecodeError
        end
  | _ => inl TypeError
  end.

End Json.

(* ================================================================= *)
(** ** The exporter *)

Module Ssmenv.
Import Py.

(** *** The world *)

(** The calls that leave the process, each recorded when it is made,
    whether it then succeeds or not. *)
Inductive event :=
| Session
| Client (service : pystr)
| GetParameter (name : pystr)
| Open (path mode : pystr)
| Write (path data : pystr)
| Close (path : pystr).

(** The files, by path, each with its text, and the calls made so far
    (the oldest first). A file is its text, as a reader that opens it in
    text mode gets it back. *)
Record World := {
  files : list (pystr * pystr);
  trace : list event
}.

Definition log (ev : event) (w : World) : World :=
  {| files := files w; trace := trace w ++ [ev] |}.

Definition store (path text : pystr) (w : World) : World :=
  {| files := dict_setitem (files w) path text; trace := trace w |}.

Definition read (path : pystr) (w : World) : option pystr :=
  dict_get (files w) path.

Definition written (path : pystr) (w : World) : pystr :=
  match read path w with
  | Some text => text
  | None => []
  end.

(** What the surroundings answer during one run: boto3 and the store
    behind it, the file system, and the two functions of the interpreter
    that [repr] needs. [None] is a call that returns normally. A write or
    a close may fail depending on what the file holds already (a full
    disk) and on the text (a character the encoding of the file does not
    have). *)
Record Env := {
  new_session : option exception;
  new_client : pystr -> option exception;
  get_parameter : pystr -> exception + pydict;
  open_error : pystr -> option exception;
  write_error : pystr -> pystr -> option exception;
  close_error : pystr -> option exception;
  isprintable : char -> bool;
  float_repr : pystr -> pystr
}.

(** *** Computations that may raise *)

(** An exception on its way up, with the exceptions that were being
    handled when it was raised ([__context__], the most recent first):
    the traceback at the end of the process shows all of them. *)
Record raised := Raised {
  exc : exception;
  context : list exception
}.

Definition M (A : Type) : Type := World -> (raised + A) * World.

Definition ret {A} (a : A) : M A := fun w => (inr a, w).

Definition raise {A} (e : exception) : M A := fun w => (inl (Raised e []), w).

Definition bind {A B} (c : M A) (k : A -> M B) : M B :=
  fun w =>
    match c w with
    | (inl r, w') => (inl r, w')
    | (inr a, w') => k a w'
    end.

Declare Scope py_scope.
Delimit Scope py_scope with py.
Notation "x <- c ;; k" := (bind c (fun x => k))
  (at level 61, c at next level, right associativity) : py_scope.
Notation "c ;; k" := (bind c (fun _ => k))
  (at level 61, right associativity) : py_scope.
Local Open Scope py_scope.

(** A call to the outside: recorded, then answered. *)
Definition call {A} (ev : event) (answer : exception + A) : M A :=
  fun w =>
    match answer with
    | inl e => (inl (Raised e []), log ev w)
    | inr a => (inr a, log ev w)
    end.

Definition answer_of (error : option exception) : exception + unit :=
  match error with
  | Some e => inl e
  | None => inr tt
  end.

(** [for x in l: body] *)
Fixpoint for_each {A} (l : list A) (body : A -> M unit) : M unit :=
  match l with
  | [] => ret tt
  | x :: l' => body x ;; for_each l' body
  end.

(** [with enter as f: body], for a context manager whose [__exit__] is
    [leave] and returns nothing: the body's exception goes on after
    [leave]; an exception of [leave] itself takes its place and keeps it
    as its context. *)
Definition with_as {F A} (enter : M F) (leave : F -> M unit) (body : F -> M A)
  : M A :=
  fun w =>
    match enter w with
    | (inl r, w1) => (inl r, w1)
    | (inr f, w1) =>
        match body f w1 with
        | (inr a, w2) =>
            match leave f w2 with
            | (inr _, w3) => (inr a, w3)
            | (inl r, w3) => (inl r, w3)
            end
        | (inl r, w2) =>
            match leave f w2 with
            | (inr _, w3) => (inl r, w3)
            | (inl r', w3) =>
                (inl (Raised (exc r') (context r' ++ exc r :: context r)), w3)
            end
        end
    end.

(** *** The library calls of [savessm] *)

Section Calls.
Variable env : Env.

(** [boto3.Session()] *)
Definition boto3_Session : M unit :=
  call Session (answer_of (new_session env)).

(** [session.client(service)] *)
Definition Session_client (session : unit) (service : pystr) : M unit :=
  call (Client service) (answer_of (new_client env service)).

(** [client.get_parameter(Name=name)]: the response is the [dict] that
    the client returns, whatever is in it. *)
Definition client_get_parameter (client : unit) (name : pystr) : M pydict :=
  call (GetParameter name) (get_parameter env name).

(** [d[key]] *)
Definition getitem (d : pydict) (key : pystr) : M value :=
  match dict_get d key with
  | Some v => ret v
  | None => raise (KeyError key)
  end.

(** [json.loads(s)] *)
Definition json_loads (s : value) : M value :=
  match Json.loads s with
  | inr v => ret v
  | inl e => raise e
  end.

(** [v.items()]: of the values [json.loads] returns, only a [dict] has
    the attribute. *)
Definition items (v : value) : M (list (pystr * value)) :=
  match v with
  | PyDict d => ret d
  | _ => raise (AttributeError (str "items"))
  end.

(** [open(path, "w")]: the file is created, or emptied when it exists,
    by the call itself. The handle is the path. *)
Definition open_w (path : pystr) : M pystr :=
  fun w =>
    let w' := log (Open path (str "w")) w in
    match open_error env path with
    | Some e => (inl (Raised e []), w')
    | None => (inr path, store path [] w')
    end.

(** [f.write(data)] *)
Definition file_write (f : pystr) (data : pystr) : M unit :=
  fun w =>
    let w' := log (Write f data) w in
    match write_error env (written f w) data with
    | Some e => (inl (Raised e []), w')
    | None => (inr tt, store f (written f w ++ data) w')
    end.

(** [f.close()], which the [with] statement calls on the way out *)
Definition file_close (f : pystr) : M unit :=
  fun w => call (Close f) (answer_of (close_error env (written f w))) w.

Definition newline : pystr := [10%N].

(** [f"{key}={value}\n"] *)
Definition fstring (key : pystr) (v : value) : pystr :=
  key ++ str "=" ++ to_str (isprintable env) (float_repr env) v ++ newline.

(** *** [savessm] *)

Definition dotenv : pystr := str ".env".

Definition savessm (param_name : pystr) : M unit :=
  session <- boto3_Session ;;
  client <- Session_client session (str "ssm") ;;
  response <- client_get_parameter client param_name ;;
  parameter_value <- getitem response (str "ParameterValue") ;;
  vars <- json_loads parameter_value ;;
  with_as (open_w dotenv) file_close (fun f =>
    kvs <- items vars ;;
    for_each kvs (fun '(key, value) => file_write f (fstring key value))).
End Calls.

(** *** [typer.run] *)

Inductive usage_error :=
| NoSuchOption (opt : pystr)
| OptionTakesNoValue (opt : pystr)
| MissingArgument (name : pystr)
| UnexpectedArgument (arg : pystr).

(** How the process ends. *)
Inductive ending :=
| Done
| HelpShown
| UsageError (err : usage_error)
| Traceback (r : raised).

Definition exit_status (e : ending) : Z :=
  match e with
  | Done | HelpShown => 0
  | Traceback _ => 1
  | UsageError _ => 2
  end.

(** The command line of a command with no option of its own: [--help] is
    the one option and takes no value, a word that starts with a dash and
    is longer than the dash is an option, and after [--] every word is an
    argument. The result is whether help was asked for and the
    arguments. *)
Fixpoint parse_args (options : bool) (argv : list pystr)
  : usage_error + (bool * list pystr) :=
  match argv with
  | [] => inr (false, [])
  | a :: argv' =>
      if options && str_eqb a (str "--") then parse_args false argv'
      else if options && str_eqb a (str "--help") then
        match parse_args options argv' with
        | inr (_, args) => inr (true, args)
        | inl err => inl err
        end
      else if options && Json.starts_with (str "--help=") a
      then inl (OptionTakesNoValue (str "--help"))
      else if options && Json.starts_with (str "-") a
              && negb (str_eqb a (str "-"))
      then inl (NoSuchOption a)
      else
        match parse_args options argv' with
        | inr (help, args) => inr (help, a :: args)
        | inl err => inl err
        end
  end.

(** [typer.run(function)] for a function of one required [str]
    parameter: the command line is checked first, and the function is
    called only with its argument in hand. An exception of the function
    is not handled. *)
Definition typer_run (name : pystr) (function : pystr -> M unit)
  (argv : list pystr) : World -> ending * World :=
  fun w =>
    match parse_args true argv with
    | inl err => (UsageError err, w)
    | inr (true, _) => (HelpShown, w)
    | inr (false, []) => (UsageError (MissingArgument name), w)
    | inr (false, [arg]) =>
        match function arg w with
        | (inr _, w') => (Done, w')
        | (inl r, w') => (Traceback r, w')
        end
    | inr (false, _ :: extra :: _) => (UsageError (UnexpectedArgument extra), w)
    end.

(** [python env.py argv...] *)
Definition main (env : Env) (argv : list pystr) : World -> ending * World :=
  typer_run (str "PARAM_NAME") (savessm env) argv.

(** *** Describing runs *)

(** The run gets [v] from the store: the session, the client and the
    request succeed, and the response holds [v] under ['ParameterValue'],
    the key that the source asks for. *)
Definition fetches (env : Env) (name : pystr) (v : value) : Prop :=
  new_session env = None /\
  new_client env (str "ssm") = None /\
  exists response,
    get_parameter env name = inr response /\
    dict_get response (str "ParameterValue") = Some v.

(** No call to the file system fails. *)
Definition file_system_works (env : Env) : Prop :=
  open_error env dotenv = None /\
  (forall held data, write_error env held data = None) /\
  (forall held, close_error env held = None).

(** What is left of [savessm] once the value is there. *)
Definition export (env : Env) (vars : value) : M unit :=
  with_as (open_w env dotenv) (file_close env) (fun f =>
    kvs <- items vars ;;
    for_each kvs (fun '(key, value) => file_write env f (fstring env key value))).

(** The three calls to boto3, in the order of the source. *)
Definition boto3_calls (name : pystr) : list event :=
  [Session; Client (str "ssm"); GetParameter name].

Definition opening : event := Open dotenv (str "w").

(** The world after some more calls that change no file. *)
Definition logged (calls : list event) (w : World) : World :=
  {| files := files w; trace := trace w ++ calls |}.

(** The line of an item, the text of all the lines of a [dict], and the
    writes that put them into [.env]. *)
Definition line (env : Env) (kv : pystr * value) : pystr :=
  let '(key, value) := kv in fstring env key value.

Definition render (env : Env) (d : pydict) : pystr :=
  flat_map (line env) d.

Definition writes (env : Env) (d : pydict) : list event :=
  List.map (fun kv => Write dotenv (line env kv)) d.

(** The world after calls that leave [text] in [.env]. *)
Definition left_with (text : pystr) (calls : list event) (w : World) : World :=
  {| files := dict_setitem (files w) dotenv text;
     trace := trace w ++ calls |}.

(** The exception that leaves a [with] block whose body raised [e]: [e]
    itself, or what the close raised, with [e] as its context. *)
Definition leaving (close : option exception) (e : exception) : raised :=
  match close with
  | None => Raised e []
  | Some e' => Raised e' [e]
  end.

(** The world after a run that exports [d]. *)
Definition exported (env : Env) (name : pystr) (d : pydict) (w : World)
  : World :=
  {| files := dict_setitem (files w) dotenv (render env d);
     trace := trace w ++ boto3_calls name ++ [opening] ++ writes env d
              ++ [Close dotenv] |}.

(** The lines of [d] can be written one after the other to a file that
    holds [held]. *)
Fixpoint writable (env : Env) (held : pystr) (d : pydict) : Prop :=
  match d with
  | [] => True
  | kv :: d' =>
      write_error env held (line env kv) = None /\
      writable env (held ++ line env kv) d'
  end.

(** [fails env name calls opened e]: in the run of [savessm env name]
    the steps before the last of [calls] succeed and the step of that call
    raises [e], with [.env] open at that moment or not. The steps are
    those of the source, in its order: the session, the client, the
    request, the subscript, the parsing, the opening, [items()], each
    write and the close. *)
Inductive fails (env : Env) (name : pystr)
  : list event -> bool -> exception -> Prop :=
| fails_session e :
    new_session env = Some e ->
    fails env name [Session] false e
| fails_client e :
    new_session env = None ->
    new_client env (str "ssm") = Some e ->
    fails env name [Session; Client (str "ssm")] false e
| fails_request e :
    new_session env = None ->
    new_client env (str "ssm") = None ->
    get_parameter env name = inl e ->
    fails env name (boto3_calls name) false e
| fails_subscript response :
    new_session env = None ->
    new_client env (str "ssm") = None ->
    get_parameter env name = inr response ->
    dict_get response (str "ParameterValue") = None ->
    fails env name (boto3_calls name) false (KeyError (str "ParameterValue"))
| fails_parse v e :
    fetches env name v ->
    Json.loads v = inl e ->
    fails env name (boto3_calls name) false e
| fails_open v x e :
    fetches env name v ->
    Json.loads v = inr x ->
    open_error env dotenv = Some e ->
    fails env name (boto3_calls name ++ [opening]) false e
| fails_items v x :
    fetches env name v ->
    Json.loads v = inr x ->
    (forall d, x <> PyDict d) ->
    open_error env dotenv = None ->
    fails env name (boto3_calls name ++ [opening]) true
      (AttributeError (str "items"))
| fails_write v d kv d' e :
    fetches env name v ->
    Json.loads v = inr (PyDict (d ++ kv :: d')) ->
    open_error env dotenv = None ->
    writable env [] d ->
    write_error env (render env d) (line env kv) = Some e ->
    fails env name
      (boto3_calls name ++ [opening] ++ writes env d
       ++ [Write dotenv (line env kv)]) true e
| fails_close v d e :
    fetches env name v ->
    Json.loads v = inr (PyDict d) ->
    open_error env dotenv = None ->
    writable env [] d ->
    close_error env (render env d) = Some e ->
    fails env name
      (boto3_calls name ++ [opening] ++ writes env d ++ [Close dotenv])
      false e.


(** What the store answers for a parameter that does not exist, and for
    one the caller may not read. *)
Definition ParameterNotFound : exception :=
  ClientError (str "ParameterNotFound").
Definition AccessDenied : exception :=
  ClientError (str "AccessDeniedException").

(** The run comes to open [.env] and the file lets it: the value is
    fetched, [json.loads] accepts it and [open] succeeds. *)
Definition opens (env : Env) (name : pystr) : Prop :=
  exists v x,
    fetches env name v /\ Json.loads v = inr x /\
    open_error env dotenv = None.

(** The calls of a run that stops before [.env] is open. *)
Definition before_opening (name : pystr) (calls : list event) : Prop :=
  calls = [Session] \/
  calls = [Session; Client (str "ssm")] \/
  calls = boto3_calls name \/
  calls = boto3_calls name ++ [opening].

Definition is_write (ev : event) : Prop :=
  exists data, ev = Write dotenv data.

(** The calls that [savessm] may make for the parameter [name]. *)
Definition expected (name : pystr) (ev : event) : Prop :=
  ev = Session \/ ev = Client (str "ssm") \/ ev = GetParameter name \/
  ev = opening \/ is_write ev \/ ev = Close dotenv.


(** *** Some surroundings *)

(** Everything works, and the store holds [v] under every name. *)
Definition holding (v : value) : Env :=
  {| new_session := None;
     new_client := fun _ => None;
     get_parameter := fun _ => inr [(str "ParameterValue", v)];
     open_error := fun _ => None;
     write_error := fun _ _ => None;
     close_error := fun _ => None;
     isprintable := fun _ => true;
     float_repr := fun text => text |}.

(** The store answers every request with the error [e]. *)
Definition refusing (e : exception) : Env :=
  {| new_session := None;
     new_client := fun _ => None;
     get_parameter := fun _ => inl e;
     open_error := fun _ => None;
     write_error := fun _ _ => None;
     close_error := fun _ => None;
     isprintable := fun _ => true;
     float_repr := fun text => text |}.

(** As [holding v], on a disk that takes [room] characters per file: a
    write past that, and a close of a file that is full, fail with
    [ENOSPC]. *)
Definition ENOSPC : exception := OSError 28.
Definition cramped (room : nat) (v : value) : Env :=
  {| new_session := None;
     new_client := fun _ => None;
     get_parameter := fun _ => inr [(str "ParameterValue", v)];
     open_error := fun _ => None;
     write_error := fun held data =>
       if Nat.ltb room (List.length held + List.length data)
       then Some ENOSPC else None;
     close_error := fun held =>
       if Nat.leb room (List.length held) then Some ENOSPC else None;
     isprintable := fun _ => true;
     float_repr := fun text => text |}.

(** A world with nothing in it, and one where [.env] holds a line. *)
Definition empty_world : World := {| files := []; trace := [] |}.
Definition old_world : World :=
  {| files := [(dotenv, str "OLD=1" ++ newline)]; trace := [] |}.


End Ssmenv.

(* ================================================================= *)
(** ** Properties *)

Import Py Ssmenv.
Local Open Scope py_scope.

(** *** Some texts *)

Example dq_text :
  dq "{'A':'1','B':'2'}"
  = [123; 34; 65; 34; 58; 34; 49; 34; 44; 34; 66; 34; 58; 34; 50; 34; 125]%N.
Proof. reflexivity. Qed.

Example loads_object :
  Json.loads (PyStr (dq "{'A':'1','B':'2'}"))
  = inr (PyDict [(str "A", PyStr (str "1")); (str "B", PyStr (str "2"))]).
Proof. vm_compute. reflexivity. Qed.

Example loads_nested :
  Json.loads (PyStr (dq " { 'a' : [1, -2.5e3, true, null, {'b': 'c'}] } "))
  = inr (PyDict [(str "a", PyList [PyInt 1; PyFloat (FloatOf (str "-2.5e3"));
                                   PyBool true; PyNone;
                                   PyDict [(str "b", PyStr (str "c"))]])]).
Proof. vm_compute. reflexivity. Qed.

Example loads_escapes :
  Json.loads (PyStr (dq "'a\n\u00e9\ud83d\ude00\ud800'"))
  = inr (PyStr [97; 10; 233; 128512; 55296]%N).
Proof. vm_compute. reflexivity. Qed.

Example loads_duplicate_keys :
  Json.loads (PyStr (dq "{'a':1,'b':2,'a':3}"))
  = inr (PyDict [(str "a", PyInt 3); (str "b", PyInt 2)]).
Proof. vm_compute. reflexivity. Qed.

Example loads_rejects :
  List.map (fun text => Json.loads (PyStr text))
    [str "not json"; str ""; str "[1,]"; dq "{'a':1,}"; dq "{'a' 1}";
     str "{a:1}"; str "01"; str "1."; str "[1 2]"; str "{} {}";
     dq "'\x'"; str "['x']"; str "True"]
  = repeat (inl JSONDecodeError) 13.
Proof. vm_compute. reflexivity. Qed.

Example loads_of_a_number : Json.loads (PyInt 5) = inl TypeError.
Proof. reflexivity. Qed.

Example str_of_values :
  List.map (to_str (fun _ => true) (fun text => text))
    [PyStr (str "it's"); PyInt (-12); PyBool false; PyNone;
     PyList [PyStr (str "it's"); PyStr (dq "'q'"); PyStr [10; 233]%N];
     PyDict [(str "k", PyList [])]]
  = [str "it's"; str "-12"; str "False"; str "None";
     [91; 34; 105; 116; 39; 115; 34; 44; 32; 39; 34; 113; 34; 39; 44; 32;
      39; 92; 110; 233; 39; 93]%N;
     str "{'k': []}"].
Proof. vm_compute. reflexivity. Qed.

(** *** Dictionaries *)

Lemma str_eqb_eq (a b : pystr) : str_eqb a b = true <-> a = b.
Proof.
  unfold str_eqb. destruct (list_eq_dec N.eq_dec a b); split; congruence.
Qed.

Lemma str_eqb_refl (a : pystr) : str_eqb a a = true.
Proof. now apply str_eqb_eq. Qed.

Lemma str_eqb_neq (a b : pystr) : str_eqb a b = false <-> a <> b.
Proof.
  unfold str_eqb. destruct (list_eq_dec N.eq_dec a b); split; congruence.
Qed.

Section DictFacts.
Variable V : Type.
Implicit Types (d pairs : list (pystr * V)) (k : pystr) (v : V).

Lemma dict_get_setitem d k v : dict_get (dict_setitem d k v) k = Some v.
Proof.
  induction d as [|[k' v'] d IH]; simpl.
  - now rewrite str_eqb_refl.
  - destruct (str_eqb k' k) eqn:E; simpl; now rewrite E.
Qed.


Lemma dict_setitem_again d k v v' :
  dict_setitem (dict_setitem d k v) k v' = dict_setitem d k v'.
Proof.
  induction d as [|[k0 v0] d IH]; simpl.
  - now rewrite str_eqb_refl.
  - destruct (str_eqb k0 k) eqn:E; simpl; rewrite E; [reflexivity|].
    now rewrite IH.
Qed.




Lemma dict_get_None d k : dict_get d k = None <-> ~ In k (map fst d).
Proof.
  induction d as [|[k0 v0] d IH]; simpl; [intuition|].
  destruct (str_eqb k0 k) eqn:E.
  - apply str_eqb_eq in E. split; [discriminate|intuition].
  - apply str_eqb_neq in E. rewrite IH. intuition.
Qed.

Lemma dict_get_In d k v : dict_get d k = Some v -> In (k, v) d.
Proof.
  induction d as [|[k0 v0] d IH]; simpl; [discriminate|].
  destruct (str_eqb k0 k) eqn:E; [|now right; apply IH].
  apply str_eqb_eq in E. intros [= ->]. now left; subst.
Qed.







End DictFacts.

(** *** The steps of a run *)

Lemma world_eq (w w' : World) :
  files w = files w' -> trace w = trace w' -> w = w'.
Proof. destruct w, w'; simpl; intros -> ->; reflexivity. Qed.

Lemma logged_app (a b : list event) (w : World) :
  logged b (logged a w) = logged (a ++ b) w.
Proof. apply world_eq; simpl; [reflexivity|now rewrite app_assoc]. Qed.

Lemma log_logged (ev : event) (w : World) : log ev w = logged [ev] w.
Proof. reflexivity. Qed.

Lemma savessm_fetched env name v w :
  fetches env name v ->
  savessm env name w
  = bind (json_loads v) (export env) (logged (boto3_calls name) w).
Proof.
  intros (Hs & Hc & response & Hg & Hv).
  unfold savessm, boto3_Session, Session_client, client_get_parameter.
  unfold bind at 1, call at 1. rewrite Hs. simpl.
  unfold bind at 1, call at 1. rewrite Hc. simpl.
  unfold bind at 1, call at 1. rewrite Hg.
  unfold bind at 1, getitem. rewrite Hv. unfold ret.
  rewrite !log_logged, !logged_app. reflexivity.
Qed.

Lemma dict_setitem_same (V : Type) (d : list (pystr * V)) k v :
  dict_get d k = Some v -> dict_setitem d k v = d.
Proof.
  induction d as [|[k0 v0] d IH]; simpl; [discriminate|].
  destruct (str_eqb k0 k); [now intros [= ->]|].
  intros H. now rewrite IH.
Qed.

Section Lines.
Variable env : Env.
Variable f : pystr.

Let body := fun '((key, value) : pystr * Py.value) =>
  file_write env f (fstring env key value).

Let after (w : World) (text : pystr) (calls : list event) : World :=
  {| files := dict_setitem (files w) f text; trace := trace w ++ calls |}.

Let wrote (d : pydict) : list event :=
  List.map (fun kv => Write f (line env kv)) d.

Lemma write_line w held kv :
  read f w = Some held ->
  body kv w =
  match write_error env held (line env kv) with
  | Some e => (inl (Raised e []), after w held [Write f (line env kv)])
  | None => (inr tt, after w (held ++ line env kv) [Write f (line env kv)])
  end.
Proof.
  intros Hr. destruct kv as [key x].
  unfold body, file_write, written, line. rewrite Hr.
  destruct (write_error env held (fstring env key x)); f_equal.
  apply world_eq; simpl; [|reflexivity].
  symmetry. now apply dict_setitem_same.
Qed.

Lemma after_read w text calls : read f (after w text calls) = Some text.
Proof. apply dict_get_setitem. Qed.

Lemma after_after w text calls text' calls' :
  after (after w text calls) text' calls' = after w text' (calls ++ calls').
Proof.
  apply world_eq; simpl; [apply dict_setitem_again|now rewrite app_assoc].
Qed.

(** All the lines go out when each write succeeds. *)
Lemma write_lines d : forall w held,
  read f w = Some held ->
  writable env held d ->
  for_each d body w = (inr tt, after w (held ++ render env d) (wrote d)).
Proof.
  induction d as [|kv d IH]; intros w held Hr Hw; simpl.
  - unfold ret. f_equal. apply world_eq; simpl.
    + rewrite app_nil_r. symmetry. now apply dict_setitem_same.
    + now rewrite app_nil_r.
  - destruct Hw as [Hkv Hw]. unfold bind.
    rewrite (write_line w kv Hr), Hkv.
    rewrite (IH _ _ (after_read _ _ _) Hw), after_after.
    now rewrite <- app_assoc.
Qed.

(** The first write that fails ends the loop. *)
Lemma write_lines_fail d kv d' e : forall w held,
  read f w = Some held ->
  writable env held d ->
  write_error env (held ++ render env d) (line env kv) = Some e ->
  for_each (d ++ kv :: d') body w
  = (inl (Raised e []),
     after w (held ++ render env d) (wrote d ++ [Write f (line env kv)])).
Proof.
  induction d as [|kv0 d IH]; intros w held Hr Hw He; simpl in *.
  - rewrite app_nil_r in *. unfold bind.
    now rewrite (write_line w kv Hr), He.
  - destruct Hw as [Hkv Hw]. unfold bind.
    rewrite (write_line w kv0 Hr), Hkv.
    rewrite app_assoc in He.
    rewrite (IH _ _ (after_read _ _ _) Hw He), after_after.
    now rewrite <- app_assoc.
Qed.

(** A loop that ends normally has written every line. *)
Lemma write_lines_inv d : forall w w' held,
  read f w = Some held ->
  for_each d body w = (inr tt, w') ->
  writable env held d.
Proof.
  induction d as [|kv d IH]; intros w w' held Hr Hrun; simpl in *; [exact I|].
  unfold bind in Hrun. rewrite (write_line w kv Hr) in Hrun.
  destruct (write_error env held (line env kv)); [discriminate|].
  split; [reflexivity|].
  eapply IH; [apply after_read|exact Hrun].
Qed.
End Lines.

(** *** The [with] block *)

Section WithBlock.
Variable env : Env.

Lemma opened_read w : read dotenv (store dotenv [] (log opening w)) = Some [].
Proof. apply dict_get_setitem. Qed.

Lemma opened_left_with w text calls :
  {| files := dict_setitem (files (store dotenv [] (log opening w))) dotenv text;
     trace := trace (store dotenv [] (log opening w)) ++ calls |}
  = left_with text (opening :: calls) w.
Proof.
  apply world_eq; simpl; [apply dict_setitem_again|].
  now rewrite <- app_assoc.
Qed.

Lemma close_left_with text calls w :
  file_close env dotenv (left_with text calls w)
  = (match close_error env text with
     | Some e => inl (Raised e [])
     | None => inr tt
     end, left_with text (calls ++ [Close dotenv]) w).
Proof.
  unfold file_close, call, answer_of, written, read, left_with at 1. simpl.
  rewrite dict_get_setitem.
  destruct (close_error env text); f_equal;
    (apply world_eq; simpl; [reflexivity|now rewrite app_assoc]).
Qed.

Lemma export_open_fails x e w :
  open_error env dotenv = Some e ->
  export env x w = (inl (Raised e []), logged [opening] w).
Proof.
  intros Ho. unfold export, with_as, open_w. now rewrite Ho.
Qed.

Lemma export_items_fails x w :
  (forall d, x <> PyDict d) ->
  open_error env dotenv = None ->
  export env x w
  = (inl (leaving (close_error env []) (AttributeError (str "items"))),
     left_with [] [opening; Close dotenv] w).
Proof.
  intros Hx Ho. unfold export, with_as, open_w. rewrite Ho.
  assert (Hitems : forall w', items x w'
                   = (inl (Raised (AttributeError (str "items")) []), w')).
  { destruct x; try reflexivity. now destruct (Hx d). }
  unfold bind at 1. rewrite Hitems.
  replace (store dotenv [] (log (Open dotenv (str "w")) w))
    with (left_with [] [opening] w) by reflexivity.
  rewrite close_left_with. now destruct (close_error env []).
Qed.

Lemma export_writes d w :
  open_error env dotenv = None ->
  writable env [] d ->
  export env (PyDict d) w
  = (match close_error env (render env d) with
     | Some e => inl (Raised e [])
     | None => inr tt
     end,
     left_with (render env d) ([opening] ++ writes env d ++ [Close dotenv]) w).
Proof.
  intros Ho Hw. unfold export, with_as, open_w. rewrite Ho.
  unfold bind at 1, items, ret. fold opening.
  rewrite (write_lines env dotenv d _ (opened_read w) Hw). simpl app at 1.
  rewrite opened_left_with, close_left_with.
  now destruct (close_error env (render env d)).
Qed.

Lemma export_write_fails d kv d' e w :
  open_error env dotenv = None ->
  writable env [] d ->
  write_error env (render env d) (line env kv) = Some e ->
  export env (PyDict (d ++ kv :: d')) w
  = (inl (leaving (close_error env (render env d)) e),
     left_with (render env d)
       ([opening] ++ writes env d ++ [Write dotenv (line env kv)]
        ++ [Close dotenv]) w).
Proof.
  intros Ho Hw He. unfold export, with_as, open_w. rewrite Ho.
  unfold bind at 1, items, ret. fold opening.
  rewrite (write_lines_fail env dotenv d kv d' _ (opened_read w) Hw He). simpl app at 1.
  rewrite opened_left_with, close_left_with.
  unfold writes. cbn [app]. rewrite <- app_assoc.
  now destruct (close_error env (render env d)).
Qed.

(** A block that ends normally was given a [dict], could open the file,
    write every line and close. *)
Lemma export_inv x w w' :
  export env x w = (inr tt, w') ->
  exists d, x = PyDict d /\ open_error env dotenv = None /\
            writable env [] d /\ close_error env (render env d) = None.
Proof.
  intros Hrun.
  destruct (open_error env dotenv) as [e|] eqn:Ho.
  { now rewrite (export_open_fails x w Ho) in Hrun. }
  assert (Hd : exists d, x = PyDict d).
  { destruct x as [| | | | | |d];
      try (exfalso;
           rewrite export_items_fails in Hrun
             by first [exact Ho | intros ? [=]];
           discriminate).
    now exists d. }
  destruct Hd as [d ->]. exists d. split; [reflexivity|]. split; [reflexivity|].
  assert (Hw : writable env [] d).
  { unfold export, with_as, open_w in Hrun. rewrite Ho in Hrun.
    unfold bind at 1, items, ret in Hrun. fold opening in Hrun.
    destruct (for_each d _ _) as [[r|[]] w2] eqn:Hloop.
    - destruct (file_close env dotenv w2) as [[?|?] ?]; discriminate.
    - eapply write_lines_inv; [apply opened_read|exact Hloop]. }
  split; [exact Hw|].
  rewrite (export_writes d w Ho Hw) in Hrun.
  now destruct (close_error env (render env d)).
Qed.
End WithBlock.

(** *** Whole runs *)

Lemma left_with_logged text calls calls' w :
  left_with text calls (logged calls' w) = left_with text (calls' ++ calls) w.
Proof. apply world_eq; simpl; [reflexivity|now rewrite app_assoc]. Qed.

Lemma read_left_with text calls w : read dotenv (left_with text calls w) = Some text.
Proof. apply dict_get_setitem. Qed.

Lemma exported_left_with env name d w :
  exported env name d w
  = left_with (render env d)
      (boto3_calls name ++ [opening] ++ writes env d ++ [Close dotenv]) w.
Proof. reflexivity. Qed.


(** A run that gets a [dict] and meets no failing file operation ends
    normally, in the world [exported]. *)
Lemma savessm_exports env name v d w :
  fetches env name v ->
  Json.loads v = inr (PyDict d) ->
  open_error env dotenv = None ->
  writable env [] d ->
  close_error env (render env d) = None ->
  savessm env name w = (inr tt, exported env name d w).
Proof.
  intros Hf Hl Ho Hw Hc. rewrite (savessm_fetched w Hf).
  unfold bind, json_loads. rewrite Hl. unfold ret.
  rewrite (export_writes env d (logged (boto3_calls name) w) Ho Hw), Hc, left_with_logged. reflexivity.
Qed.

(** And only such a run does. *)
Lemma savessm_inv env name w w' :
  savessm env name w = (inr tt, w') ->
  exists v d,
    fetches env name v /\ Json.loads v = inr (PyDict d) /\
    open_error env dotenv = None /\ writable env [] d /\
    close_error env (render env d) = None /\
    w' = exported env name d w.
Proof.
  intros Hrun.
  assert (Hf : exists v, fetches env name v).
  { unfold savessm, boto3_Session, Session_client, client_get_parameter in Hrun.
    unfold bind at 1, call at 1 in Hrun.
    destruct (new_session env) eqn:Hs; [discriminate|]. simpl in Hrun.
    unfold bind at 1, call at 1 in Hrun.
    destruct (new_client env (str "ssm")) eqn:Hc; [discriminate|]. simpl in Hrun.
    unfold bind at 1, call at 1 in Hrun.
    destruct (get_parameter env name) as [?|response] eqn:Hg; [discriminate|].
    unfold bind at 1, getitem in Hrun.
    destruct (dict_get response (str "ParameterValue")) as [v|] eqn:Hv;
      [|discriminate].
    exists v. repeat split; trivial. now exists response. }
  destruct Hf as [v Hf]. exists v. pose proof Hrun as Hw'.
  rewrite (savessm_fetched w Hf) in Hrun.
  unfold bind, json_loads in Hrun.
  destruct (Json.loads v) as [?|x] eqn:Hl; [discriminate|]. unfold ret in Hrun.
  destruct (export_inv env x _ Hrun) as (d & -> & Ho & Hw & Hc).
  exists d. do 5 (split; [first [assumption|reflexivity]|]).
  rewrite (savessm_exports w Hf Hl Ho Hw Hc) in Hw'.
  injection Hw' as Hw'. now symmetry.
Qed.



(* ================================================================= *)
(** ** The properties of the exporter *)

(** Closes the side conditions of a run in given surroundings. *)
Ltac surroundings :=
  repeat match goal with
         | |- fetches _ _ _ => unfold fetches
         | |- file_system_works _ => unfold file_system_works
         | |- _ /\ _ => split
         | |- exists _, _ => eexists
         | |- forall _, _ => intro
         | |- _ = _ => reflexivity
         | |- _ = _ => vm_compute; reflexivity
         end.





(** C3. When [json.loads] rejects the fetched value, the run fails with
    the exception of [json.loads], and it fails before the file is
    touched: no file has changed, and the calls of the run are the three
    calls to boto3, with no open, write or close among them. *)
Theorem invalid_json_touches_no_file env name v e w :
  fetches env name v ->
  Json.loads v = inl e ->
  exists w',
    savessm env name w = (inl (Raised e []), w') /\
    files w' = files w /\
    trace w' = trace w ++ boto3_calls name.
Proof.
  intros Hf Hl. exists (logged (boto3_calls name) w).
  split; [|split; reflexivity].
  rewrite (savessm_fetched w Hf). unfold bind, json_loads. now rewrite Hl.
Qed.

Lemma invalid_json_touches_no_file_witness :
  exists w',
    savessm (holding (PyStr (str "not json"))) (str "/app/env") old_world
    = (inl (Raised JSONDecodeError []), w') /\
    files w' = files old_world /\
    trace w' = trace old_world ++ boto3_calls (str "/app/env").
Proof.
  apply (invalid_json_touches_no_file (v := PyStr (str "not json")));
    surroundings.
Defined.

(** C6. When the store answers the request with [ParameterNotFound] or
    with [AccessDeniedException], the run fails with that very error, as
    boto3 raised it, and with nothing else; no file is touched. *)
Theorem store_error_is_the_error env name e w :
  new_session env = None ->
  new_client env (str "ssm") = None ->
  get_parameter env name = inl e ->
  e = ParameterNotFound \/ e = AccessDenied ->
  exists w',
    savessm env name w = (inl (Raised e []), w') /\
    files w' = files w /\
    trace w' = trace w ++ boto3_calls name.
Proof.
  intros Hs Hc Hg _. exists (logged (boto3_calls name) w).
  split; [|split; reflexivity].
  unfold savessm, boto3_Session, Session_client, client_get_parameter.
  unfold bind at 1, call at 1. rewrite Hs. simpl.
  unfold bind at 1, call at 1. rewrite Hc. simpl.
  unfold bind at 1, call at 1. rewrite Hg.
  rewrite !log_logged, !logged_app. reflexivity.
Qed.

Lemma store_error_is_the_error_witness :
  exists w',
    savessm (refusing ParameterNotFound) (str "/app/missing") old_world
    = (inl (Raised ParameterNotFound []), w') /\
    files w' = files old_world /\
    trace w' = trace old_world ++ boto3_calls (str "/app/missing").
Proof.
  apply store_error_is_the_error; try reflexivity. left. reflexivity.
Defined.


Lemma fetches_unique env name v v' :
  fetches env name v -> fetches env name v' -> v = v'.
Proof.
  intros (_ & _ & r & Hg & Hv) (_ & _ & r' & Hg' & Hv').
  rewrite Hg in Hg'. injection Hg' as <-. congruence.
Qed.

(** C5. Of two runs that end normally, one after the other on the same
    [.env], the second leaves in the file the lines of its own value and
    nothing else: the text is the one the second run leaves from any
    other world, whatever the first run, or anyone, had put in the file. *)
Theorem second_run_replaces_first env1 env2 name1 name2 w0 w1 w2 :
  savessm env1 name1 w0 = (inr tt, w1) ->
  savessm env2 name2 w1 = (inr tt, w2) ->
  exists v d,
    fetches env2 name2 v /\
    Json.loads v = inr (PyDict d) /\
    read dotenv w2 = Some (render env2 d) /\
    forall w w', savessm env2 name2 w = (inr tt, w') ->
                 read dotenv w' = read dotenv w2.
Proof.
  intros _ H2.
  destruct (savessm_inv _ _ _ H2) as (v & d & Hf & Hl & _ & _ & _ & ->).
  exists v, d. rewrite exported_left_with, read_left_with.
  do 3 (split; [first [assumption|reflexivity]|]).
  intros w w' H.
  destruct (savessm_inv _ _ _ H) as (v' & d' & Hf' & Hl' & _ & _ & _ & ->).
  rewrite exported_left_with, read_left_with.
  rewrite <- (fetches_unique Hf Hf') in Hl'. congruence.
Qed.

Lemma second_run_replaces_first_witness :
  let env1 := holding (PyStr (dq "{'A':'1','B':'2'}")) in
  let env2 := holding (PyStr (dq "{'C':'3'}")) in
  let name := str "/app/env" in
  let w1 := snd (savessm env1 name old_world) in
  let w2 := snd (savessm env2 name w1) in
  read dotenv w1 = Some (str "A=1" ++ newline ++ str "B=2" ++ newline) /\
  read dotenv w2 = Some (str "C=3" ++ newline) /\
  exists v d,
    fetches env2 name v /\
    Json.loads v = inr (PyDict d) /\
    read dotenv w2 = Some (render env2 d) /\
    forall w w', savessm env2 name w = (inr tt, w') ->
                 read dotenv w' = read dotenv w2.
Proof.
  intros env1 env2 name w1 w2.
  split; [vm_compute; reflexivity|]. split; [vm_compute; reflexivity|].
  apply (@second_run_replaces_first env1 env2 name name old_world w1 w2);
    vm_compute; reflexivity.
Defined.





(** The run of the witness, spelled out: [a] keeps the place of its first
    member and has the value of its last. *)
Example duplicate_keys_run :
  read dotenv
    (snd (savessm (holding (PyStr (dq "{'a':1,'b':2,'a':3}")))
            (str "/app/env") old_world))
  = Some (str "a=3" ++ newline ++ str "b=2" ++ newline).
Proof. vm_compute. reflexivity. Qed.







(** *** Failures *)

Lemma savessm_session_fails env name e w :
  new_session env = Some e ->
  savessm env name w = (inl (Raised e []), logged [Session] w).
Proof.
  intros Hs. unfold savessm, boto3_Session.
  unfold bind at 1, call at 1. now rewrite Hs.
Qed.

Lemma savessm_client_fails env name e w :
  new_session env = None ->
  new_client env (str "ssm") = Some e ->
  savessm env name w
  = (inl (Raised e []), logged [Session; Client (str "ssm")] w).
Proof.
  intros Hs Hc. unfold savessm, boto3_Session, Session_client.
  unfold bind at 1, call at 1. rewrite Hs. simpl.
  unfold bind at 1, call at 1. rewrite Hc. simpl.
  rewrite !log_logged, !logged_app. reflexivity.
Qed.

Lemma savessm_request_fails env name e w :
  new_session env = None ->
  new_client env (str "ssm") = None ->
  get_parameter env name = inl e ->
  savessm env name w = (inl (Raised e []), logged (boto3_calls name) w).
Proof.
  intros Hs Hc Hg.
  unfold savessm, boto3_Session, Session_client, client_get_parameter.
  unfold bind at 1, call at 1. rewrite Hs. simpl.
  unfold bind at 1, call at 1. rewrite Hc. simpl.
  unfold bind at 1, call at 1. rewrite Hg.
  rewrite !log_logged, !logged_app. reflexivity.
Qed.

Lemma savessm_subscript_fails env name response w :
  new_session env = None ->
  new_client env (str "ssm") = None ->
  get_parameter env name = inr response ->
  dict_get response (str "ParameterValue") = None ->
  savessm env name w
  = (inl (Raised (KeyError (str "ParameterValue")) []),
     logged (boto3_calls name) w).
Proof.
  intros Hs Hc Hg Hv.
  unfold savessm, boto3_Session, Session_client, client_get_parameter.
  unfold bind at 1, call at 1. rewrite Hs. simpl.
  unfold bind at 1, call at 1. rewrite Hc. simpl.
  unfold bind at 1, call at 1. rewrite Hg.
  unfold bind at 1, getitem. rewrite Hv. unfold raise.
  rewrite !log_logged, !logged_app. reflexivity.
Qed.

Lemma savessm_loaded env name v x w :
  fetches env name v ->
  Json.loads v = inr x ->
  savessm env name w = export env x (logged (boto3_calls name) w).
Proof.
  intros Hf Hl. rewrite (savessm_fetched w Hf).
  unfold bind, json_loads. now rewrite Hl.
Qed.

(** [typer.run] hands the exception of the function on. *)
Lemma main_traceback env argv name r w w' :
  parse_args true argv = inr (false, [name]) ->
  savessm env name w = (inl r, w') ->
  main env argv w = (Traceback r, w').
Proof.
  intros Hargs Hrun. unfold main, typer_run. now rewrite Hargs, Hrun.
Qed.

Lemma leaving_chain close e : In e (exc (leaving close e) :: context (leaving close e)).
Proof. destruct close; simpl; auto. Qed.

(** The run of a step that fails. *)
Ltac same_trace :=
  simpl; rewrite ?app_nil_r, <- ?app_assoc; simpl; reflexivity.

Lemma fails_run env name calls opened e w :
  fails env name calls opened e ->
  exists r w',
    savessm env name w = (inl r, w') /\
    (if opened
     then exists held, r = leaving (close_error env held) e
     else r = Raised e []) /\
    trace w' = trace w ++ calls ++ (if opened then [Close dotenv] else []).
Proof.
  intros [e' Hs|e' Hs Hc|e' Hs Hc Hg|response Hs Hc Hg Hv|v e' Hf Hl
         |v x e' Hf Hl Ho|v x Hf Hl Hx Ho|v d kv d' e' Hf Hl Ho Hw He
         |v d e' Hf Hl Ho Hw Hc].
  - do 2 eexists. split; [apply savessm_session_fails; eassumption|].
    split; [reflexivity|]. same_trace.
  - do 2 eexists. split; [apply savessm_client_fails; eassumption|].
    split; [reflexivity|]. same_trace.
  - do 2 eexists. split; [apply savessm_request_fails; eassumption|].
    split; [reflexivity|]. same_trace.
  - do 2 eexists. split; [eapply savessm_subscript_fails; eassumption|].
    split; [reflexivity|]. same_trace.
  - do 2 eexists. split.
    + rewrite (savessm_fetched w Hf). unfold bind, json_loads. rewrite Hl.
      reflexivity.
    + split; [reflexivity|]. same_trace.
  - do 2 eexists. split.
    + rewrite (savessm_loaded w Hf Hl). apply export_open_fails; eassumption.
    + split; [reflexivity|]. same_trace.
  - do 2 eexists. split.
    + rewrite (savessm_loaded w Hf Hl). apply export_items_fails; eassumption.
    + split; [now exists []|]. same_trace.
  - do 2 eexists. split.
    + rewrite (savessm_loaded w Hf Hl). apply export_write_fails; eassumption.
    + split; [now exists (render env d)|]. same_trace.
  - do 2 eexists. split.
    + rewrite (savessm_loaded w Hf Hl), (export_writes env d _ Ho Hw), Hc.
      reflexivity.
    + split; [reflexivity|]. same_trace.
Qed.

Lemma writable_or_not env d : forall held,
  writable env held d \/
  exists d1 kv d2 e,
    d = d1 ++ kv :: d2 /\ writable env held d1 /\
    write_error env (held ++ render env d1) (line env kv) = Some e.
Proof.
  induction d as [|kv d IH]; intros held; [now left|].
  destruct (write_error env held (line env kv)) as [e|] eqn:He.
  - right. exists [], kv, d, e. simpl. now rewrite app_nil_r.
  - destruct (IH (held ++ line env kv)) as [Hw|(d1 & kv' & d2 & e & -> & Hw & He')].
    + left. now split.
    + right. exists (kv :: d1), kv', d2, e. simpl.
      rewrite app_assoc. now repeat split.
Qed.

(** C7. Whatever step fails (the session, the client, the request, the
    subscript, the parsing, the opening of the file, [items()], a write
    or the close), the run ends there: its calls are the calls up to the
    one that failed, each made once, and then only the close of the file
    if the [with] block had opened it. The run does not end normally:
    the exception of the step, as it was raised, is the one that leaves
    [savessm], and [typer.run] hands it on, so that the process ends
    with its traceback and status 1. (When the step was inside the
    [with] block and the close fails as well, the exception of the close
    leaves, and the traceback shows the exception of the step before it,
    as its context.) *)
Theorem failure_ends_the_run env name calls opened e w :
  fails env name calls opened e ->
  exists r w',
    savessm env name w = (inl r, w') /\
    In e (exc r :: context r) /\
    (opened = false -> r = Raised e []) /\
    (opened = true -> exists held, r = leaving (close_error env held) e) /\
    trace w' = trace w ++ calls ++ (if opened then [Close dotenv] else []) /\
    forall argv,
      parse_args true argv = inr (false, [name]) ->
      main env argv w = (Traceback r, w') /\
      exit_status (Traceback r) = 1%Z.
Proof.
  intros H. destruct (fails_run w H) as (r & w' & Hrun & Hr & Ht).
  exists r, w'. split; [exact Hrun|].
  split; [|split; [|split; [|split; [exact Ht|]]]].
  - destruct opened.
    + destruct Hr as [held ->]. apply leaving_chain.
    + subst r. now left.
  - intros ->. exact Hr.
  - intros ->. exact Hr.
  - intros argv Hargs. split; [|reflexivity].
    now apply main_traceback with (name := name).
Qed.

Lemma failure_ends_the_run_witness :
  let v := PyStr (dq "{'A':'1','B':'2'}") in
  let env := cramped 5 v in
  let name := str "/app/env" in
  let calls := boto3_calls name ++ [opening]
               ++ writes env [(str "A", PyStr (str "1"))]
               ++ [Write dotenv (line env (str "B", PyStr (str "2")))] in
  exists r w',
    savessm env name old_world = (inl r, w') /\
    In ENOSPC (exc r :: context r) /\
    (true = false -> r = Raised ENOSPC []) /\
    (true = true -> exists held, r = leaving (close_error env held) ENOSPC) /\
    trace w' = trace old_world ++ calls ++ [Close dotenv] /\
    forall argv,
      parse_args true argv = inr (false, [name]) ->
      main env argv old_world = (Traceback r, w') /\
      exit_status (Traceback r) = 1%Z.
Proof.
  intros v env name calls.
  apply (@failure_ends_the_run env name calls true ENOSPC old_world).
  apply (@fails_write env name v [(str "A", PyStr (str "1"))]
           (str "B", PyStr (str "2")) [] ENOSPC).
  - surroundings.
  - vm_compute. reflexivity.
  - reflexivity.
  - split; [reflexivity|exact I].
  - reflexivity.
Defined.

(** The run of the witness: the first line is written, the second is
    not, the file is closed, and the error of the write leaves. *)
Example full_disk_run :
  let env := cramped 5 (PyStr (dq "{'A':'1','B':'2'}")) in
  main env [str "/app/env"] old_world
  = (Traceback (Raised ENOSPC []),
     {| files := [(dotenv, str "A=1" ++ newline)];
        trace := [Session; Client (str "ssm"); GetParameter (str "/app/env");
                  opening;
                  Write dotenv (str "A=1" ++ newline);
                  Write dotenv (str "B=2" ++ newline);
                  Close dotenv] |}).
Proof. vm_compute. reflexivity. Qed.

(** When the write fails and then the close fails too (here the one line
    fills the disk, the second does not fit, and the close of the full
    file fails), the error of the close leaves, and the error of the
    write is its context. *)
Example write_and_close_fail :
  let env := cramped 4 (PyStr (dq "{'A':'1','B':'2'}")) in
  fst (main env [str "/app/env"] old_world)
  = Traceback (Raised ENOSPC [ENOSPC]).
Proof. vm_compute. reflexivity. Qed.

(** A response that has the value elsewhere, here under
    [['Parameter']['Value']] as the reference of boto3 shows the response
    of [get_parameter], ends the run at the subscript. *)
Example subscript_on_a_nested_response :
  let response :=
    [(str "Parameter",
      PyDict [(str "Name", PyStr (str "/app/env"));
              (str "Value", PyStr (dq "{'A':'1'}"))])] in
  let env :=
    {| new_session := None;
       new_client := fun _ => None;
       get_parameter := fun _ => inr response;
       open_error := fun _ => None;
       write_error := fun _ _ => None;
       close_error := fun _ => None;
       isprintable := fun _ => true;
       float_repr := fun text => text |} in
  main env [str "/app/env"] old_world
  = (Traceback (Raised (KeyError (str "ParameterValue")) []),
     logged (boto3_calls (str "/app/env")) old_world).
Proof. vm_compute. reflexivity. Qed.

(** Other command lines. *)
Example help_is_shown env w :
  main env [str "--help"] w = (HelpShown, w).
Proof. reflexivity. Qed.

Example two_arguments env w :
  main env [str "a"; str "b"] w = (UsageError (UnexpectedArgument (str "b")), w).
Proof. reflexivity. Qed.

Example unknown_option env w :
  main env [str "--name"; str "a"] w
  = (UsageError (NoSuchOption (str "--name")), w).
Proof. reflexivity. Qed.

Example one_argument :
  main (holding (PyStr (dq "{'A':'1'}"))) [str "/app/env"] empty_world
  = (Done,
     {| files := [(dotenv, str "A=1" ++ newline)];
        trace := [Session; Client (str "ssm"); GetParameter (str "/app/env");
                  opening; Write dotenv (str "A=1" ++ newline);
                  Close dotenv] |}).
Proof. vm_compute. reflexivity. Qed.

(* ================================================================= *)
(** ** More on every run *)

Lemma writes_are_writes env d : Forall is_write (writes env d).
Proof.
  unfold writes. apply Forall_forall. intros ev Hin.
  apply in_map_iff in Hin. destruct Hin as (kv & <- & _). now eexists.
Qed.

(** The two ways a run can go: it stops before [.env] is open, and then
    it has failed and changed no file, or it opens the file, and then its
    calls end with the close and only [.env] has changed. *)
Lemma run_world env name w :
  (~ opens env name /\
   exists calls r,
     savessm env name w = (inl r, logged calls w) /\
     before_opening name calls) \/
  (opens env name /\
   exists res text body,
     savessm env name w
     = (res, left_with text
               (boto3_calls name ++ [opening] ++ body ++ [Close dotenv]) w) /\
     Forall is_write body).
Proof.
  destruct (new_session env) as [e|] eqn:Hs.
  { left. split; [intros (v & x & (Hs' & _) & _); congruence|].
    do 2 eexists. split; [now apply savessm_session_fails with (e := e)|].
    now left. }
  destruct (new_client env (str "ssm")) as [e|] eqn:Hc.
  { left. split; [intros (v & x & (_ & Hc' & _) & _); congruence|].
    do 2 eexists. split; [now apply savessm_client_fails with (e := e)|].
    right. now left. }
  destruct (get_parameter env name) as [e|response] eqn:Hg.
  { left. split; [intros (v & x & (_ & _ & r & Hg' & _) & _); congruence|].
    do 2 eexists. split; [now apply savessm_request_fails with (e := e)|].
    right. right. now left. }
  destruct (dict_get response (str "ParameterValue")) as [v|] eqn:Hv.
  2: { left. split; [intros (v & x & (_ & _ & r & Hg' & Hv') & _); congruence|].
       do 2 eexists.
       split; [now apply savessm_subscript_fails with (response := response)|].
       right. right. now left. }
  assert (Hf : fetches env name v).
  { repeat split; trivial. now exists response. }
  destruct (Json.loads v) as [e|x] eqn:Hl.
  { left. split.
    - intros (v' & x & Hf' & Hl' & _).
      rewrite <- (fetches_unique Hf Hf') in Hl'. congruence.
    - do 2 eexists. split; [|right; right; now left].
      rewrite (savessm_fetched w Hf). unfold bind, json_loads. now rewrite Hl. }
  destruct (open_error env dotenv) as [e|] eqn:Ho.
  { left. split; [intros (_ & _ & _ & _ & Ho'); congruence|].
    do 2 eexists. split; [|right; right; now right].
    rewrite (savessm_loaded w Hf Hl), (export_open_fails env x _ Ho).
    now rewrite logged_app. }
  right. split; [now exists v, x|].
  rewrite (savessm_loaded w Hf Hl).
  assert (Hx : (exists d, x = PyDict d) \/ (forall d, x <> PyDict d)).
  { destruct x; try (right; intros ? [=]; fail). left. now eexists. }
  destruct Hx as [[d ->]|Hx].
  2: { exists (inl (leaving (close_error env []) (AttributeError (str "items")))),
         [], [].
       split; [|constructor].
       now rewrite (export_items_fails env _ Hx Ho), left_with_logged. }
  destruct (writable_or_not env d []) as [Hw|(d1 & kv & d2 & e & -> & Hw & He)].
  - do 3 eexists. split; [|apply (writes_are_writes env d)].
    now rewrite (export_writes env d _ Ho Hw), left_with_logged.
  - exists (inl (leaving (close_error env (render env d1)) e)), (render env d1),
      (writes env d1 ++ [Write dotenv (line env kv)]).
    split.
    + rewrite (export_write_fails env d1 kv d2 _ Ho Hw He), left_with_logged.
      now rewrite <- !app_assoc.
    + apply Forall_app. split; [apply writes_are_writes|].
      constructor; [now eexists|constructor].
Qed.



(** X2. A run that does not come to open [.env] (the session, the client,
    the request, the subscript or the parsing fails, or the file cannot
    be opened) fails, changes no file at all, and makes no write and no
    close. *)
Theorem nothing_changes_before_the_open env name w :
  ~ opens env name ->
  exists r calls,
    savessm env name w = (inl r, logged calls w) /\
    files (logged calls w) = files w /\
    ~ In (Close dotenv) calls /\
    forall data, ~ In (Write dotenv data) calls.
Proof.
  intros Hno.
  destruct (run_world env name w) as [(_ & calls & r & Hrun & Hc)|(Ho & _)];
    [|contradiction].
  exists r, calls. split; [exact Hrun|]. split; [reflexivity|].
  destruct Hc as [->|[->|[->| ->]]]; (split; [|intros data]);
    unfold boto3_calls, opening; simpl; intros H;
    repeat (destruct H as [H|H]; [discriminate H|]); exact H.
Qed.

Lemma nothing_changes_before_the_open_witness :
  exists r calls,
    savessm (refusing AccessDenied) (str "/app/env") old_world
    = (inl r, logged calls old_world) /\
    files (logged calls old_world) = files old_world /\
    ~ In (Close dotenv) calls /\
    forall data, ~ In (Write dotenv data) calls.
Proof.
  apply nothing_changes_before_the_open.
  intros (v & x & (_ & _ & response & Hg & _) & _). discriminate Hg.
Defined.

(** X3. A run that opens [.env] closes it, whatever happens in between:
    after the three calls to boto3 and the open, the run makes writes to
    [.env] and nothing else, and its last call is the close, also when
    [items()] or a write fails. *)
Theorem an_opened_file_is_closed env name w :
  opens env name ->
  exists body,
    trace (snd (savessm env name w))
    = trace w ++ boto3_calls name ++ [opening] ++ body ++ [Close dotenv] /\
    Forall is_write body.
Proof.
  intros Ho.
  destruct (run_world env name w)
    as [(Hno & _)|(_ & res & text & body & -> & Hb)]; [contradiction|].
  now exists body.
Qed.

Lemma an_opened_file_is_closed_witness :
  let env := cramped 5 (PyStr (dq "{'A':'1','B':'2'}")) in
  exists body,
    trace (snd (savessm env (str "/app/env") old_world))
    = trace old_world ++ boto3_calls (str "/app/env") ++ [opening] ++ body
      ++ [Close dotenv] /\
    Forall is_write body.
Proof.
  intros env. apply an_opened_file_is_closed.
  exists (PyStr (dq "{'A':'1','B':'2'}")),
    (PyDict [(str "A", PyStr (str "1")); (str "B", PyStr (str "2"))]).
  surroundings.
Defined.

(** X4. A run makes no call but those of the source: it asks for the
    service [ssm] and no other, requests the parameter it was given and
    no other, opens [.env] for writing and no other file, and writes to
    and closes that file only. *)
Theorem only_the_expected_calls env name w :
  exists calls,
    trace (snd (savessm env name w)) = trace w ++ calls /\
    Forall (expected name) calls.
Proof.
  destruct (run_world env name w)
    as [(_ & calls & r & -> & Hc)|(_ & res & text & body & -> & Hb)].
  - exists calls. split; [reflexivity|].
    unfold expected.
    destruct Hc as [->|[->|[->| ->]]]; repeat constructor; tauto.
  - eexists. split; [reflexivity|].
    repeat (apply Forall_app; split); unfold expected.
    + repeat constructor; tauto.
    + repeat constructor; tauto.
    + eapply Forall_impl; [|exact Hb]. tauto.
    + repeat constructor; tauto.
Qed.
